(** * ButtonExtraBehavior: a shallow embedding of
      [widgets/button_extra_behavior.py]

    The mixin classifies pointer input on one widget into right / middle /
    scroll / double / long / single clicks with the help of two Kivy
    [ClockEvent]s.  The embedding keeps the shape of the Python code: every
    method is a computation in a small state-and-exception monad over a
    [World] made of the instance attributes ([Self]), the Kivy clock
    ([Clock]) and the list of calls that leave the mixin ([outputs]).

    Conventions.
    - Python numbers (the [NumericProperty] values and clock times) are exact
      rationals [Q]; the literal [.001] is [1 # 1000].
    - A [ClockEvent] object is a handle (its index in [events]); the clock's
      linked list of scheduled events is [scheduled], in scheduling order,
      each entry with the tick time at which it was armed.  An event
      [is_triggered] exactly while it is linked in that list, as in Kivy.
      A frame ([tick]) runs, in scheduling order, every scheduled event
      whose timeout has elapsed since it was armed; the clock's resolution
      is taken to be zero.
    - A touch is recorded by value, with the two marks that [send_press]
      sets on it; what Kivy itself changes in a touch object between two
      events (its position) is carried by the touch of each event.
    - The collaborators that are not part of this file (hit test, children,
      the next class in the MRO) are the fields of [Host]; calls to the
      next class in the MRO are recorded in [outputs]. *)

From Stdlib Require Import QArith Bool String List Arith Lia Lqa.
Import ListNotations.

Local Open Scope string_scope.
Local Open Scope list_scope.

(** ** Touches *)

Record Touch := mkTouch {
  uid : nat;
  pos : Q * Q;
  profile : list string;
  button : string;
  ud_self : bool;              (* touch.ud[self] is set *)
  grab_current_self : bool     (* touch.grab_current is self *)
}.

Definition in_profile (name : string) (touch : Touch) : bool :=
  existsb (String.eqb name) (profile touch).

Fixpoint substring_of (needle hay : string) : bool :=
  match hay with
  | EmptyString => String.eqb needle EmptyString
  | String _ rest => String.prefix needle hay || substring_of needle rest
  end.

(** Kivy's [MotionEvent.is_mouse_scrolling]:
    ['button' in self.profile and 'scroll' in self.button]. *)
Definition is_mouse_scrolling (touch : Touch) : bool :=
  in_profile "button" touch && substring_of "scroll" (button touch).

(** ** What leaves the mixin *)

Inductive Notification :=
| on_double_click | on_middle_click | on_right_click
| on_long_press | on_scroll_up | on_scroll_down.

Inductive Output :=
| Dispatch (n : Notification)          (* self.dispatch("on_...") *)
| SuperTouchDown (touch : Touch)       (* super().on_touch_down(touch) *)
| SuperTouchUp (touch : Touch)         (* super().on_touch_up(touch) *)
| SuperTriggerAction.                  (* super().trigger_action() *)

Inductive Exn := AttributeError | OtherException.

Inductive Outcome := Returns | Raises (e : Exn).

(** ** External collaborators *)

Record Host := mkHost {
  collide_point : Q * Q -> bool;
  children_on_touch_down : Touch -> bool;   (* some child consumed it *)
  children_on_touch_up : Touch -> bool;
  super_on_touch_down : Touch -> option bool;
  super_on_touch_up : Touch -> option bool;
  super_trigger_action : Outcome
}.

(** ** Instance attributes *)

Inductive ButtonState := normal | down.

Record Self := mkSelf {
  long_time : Q;
  double_time : Q;
  double_click_enabled : bool;
  scroll_timeout : Q;
  _long_clock : nat;
  _after_long_press : bool;
  _double_clock : nat;
  _second_click : bool;
  _current_touch : option Touch;
  state : ButtonState
}.

(** ** The Kivy clock *)

Inductive Callback := long_pressed_cb | send_press_cb.

Record ClockEvent := mkEvent { callback : Callback; timeout : Q }.

Record Clock := mkClock {
  last_tick : Q;
  events : list ClockEvent;
  scheduled : list (nat * Q)
}.

Record World := mkWorld {
  self : Self;
  clock : Clock;
  outputs : list Output
}.

(** ** The monad *)

Inductive Res (A : Type) :=
| Ok (a : A) (w : World)
| Raised (e : Exn) (w : World).
Arguments Ok {A} a w.
Arguments Raised {A} e w.

Definition M (A : Type) := World -> Res A.

Definition ret {A} (a : A) : M A := fun w => Ok a w.

Definition bind {A B} (m : M A) (k : A -> M B) : M B :=
  fun w => match m w with
           | Ok a w' => k a w'
           | Raised e w' => Raised e w'
           end.

Definition raise {A} (e : Exn) : M A := fun w => Raised e w.

(** [try: m except AttributeError: pass] *)
Definition except_AttributeError (m : M unit) : M unit :=
  fun w => match m w with
           | Raised AttributeError w' => Ok tt w'
           | r => r
           end.

Declare Scope py_scope.
Delimit Scope py_scope with py.
Notation "x <- m ;; k" := (bind m (fun x => k))
  (at level 61, m at next level, right associativity) : py_scope.
Notation "m ;; k" := (bind m (fun _ => k))
  (at level 61, right associativity) : py_scope.
Local Open Scope py_scope.

Definition get {A} (f : Self -> A) : M A := fun w => Ok (f (self w)) w.

Definition modify_self (f : Self -> Self) : M unit :=
  fun w => Ok tt (mkWorld (f (self w)) (clock w) (outputs w)).

Definition modify_clock (f : Clock -> Clock) : M unit :=
  fun w => Ok tt (mkWorld (self w) (f (clock w)) (outputs w)).

Definition get_clock {A} (f : Clock -> A) : M A := fun w => Ok (f (clock w)) w.

Definition emit (o : Output) : M unit :=
  fun w => Ok tt (mkWorld (self w) (clock w) (outputs w ++ [o])).

Definition dispatch (n : Notification) : M unit := emit (Dispatch n).

(** Attribute assignments. *)

Definition set_long_time (v : Q) (s : Self) : Self :=
  mkSelf v (double_time s) (double_click_enabled s) (scroll_timeout s)
    (_long_clock s) (_after_long_press s) (_double_clock s) (_second_click s)
    (_current_touch s) (state s).

Definition set_double_time (v : Q) (s : Self) : Self :=
  mkSelf (long_time s) v (double_click_enabled s) (scroll_timeout s)
    (_long_clock s) (_after_long_press s) (_double_clock s) (_second_click s)
    (_current_touch s) (state s).

Definition set_double_click_enabled (v : bool) (s : Self) : Self :=
  mkSelf (long_time s) (double_time s) v (scroll_timeout s)
    (_long_clock s) (_after_long_press s) (_double_clock s) (_second_click s)
    (_current_touch s) (state s).

Definition set_scroll_timeout (v : Q) (s : Self) : Self :=
  mkSelf (long_time s) (double_time s) (double_click_enabled s) v
    (_long_clock s) (_after_long_press s) (_double_clock s) (_second_click s)
    (_current_touch s) (state s).

Definition set__long_clock (v : nat) (s : Self) : Self :=
  mkSelf (long_time s) (double_time s) (double_click_enabled s)
    (scroll_timeout s) v (_after_long_press s) (_double_clock s)
    (_second_click s) (_current_touch s) (state s).

Definition set__after_long_press (v : bool) (s : Self) : Self :=
  mkSelf (long_time s) (double_time s) (double_click_enabled s)
    (scroll_timeout s) (_long_clock s) v (_double_clock s)
    (_second_click s) (_current_touch s) (state s).

Definition set__double_clock (v : nat) (s : Self) : Self :=
  mkSelf (long_time s) (double_time s) (double_click_enabled s)
    (scroll_timeout s) (_long_clock s) (_after_long_press s) v
    (_second_click s) (_current_touch s) (state s).

Definition set__second_click (v : bool) (s : Self) : Self :=
  mkSelf (long_time s) (double_time s) (double_click_enabled s)
    (scroll_timeout s) (_long_clock s) (_after_long_press s)
    (_double_clock s) v (_current_touch s) (state s).

Definition set__current_touch (v : option Touch) (s : Self) : Self :=
  mkSelf (long_time s) (double_time s) (double_click_enabled s)
    (scroll_timeout s) (_long_clock s) (_after_long_press s)
    (_double_clock s) (_second_click s) v (state s).

Definition set_state (v : ButtonState) (s : Self) : Self :=
  mkSelf (long_time s) (double_time s) (double_click_enabled s)
    (scroll_timeout s) (_long_clock s) (_after_long_press s)
    (_double_clock s) (_second_click s) (_current_touch s) v.

(** ** [ClockEvent] operations (Kivy's [kivy.clock]) *)

Definition linked (h : nat) (c : Clock) : bool :=
  existsb (fun p => Nat.eqb (fst p) h) (scheduled c).

Definition unlink (h : nat) (l : list (nat * Q)) : list (nat * Q) :=
  filter (fun p => negb (Nat.eqb (fst p) h)) l.
Arguments unlink : simpl never.

(** [event.is_triggered] *)
Definition is_triggered (h : nat) : M bool := get_clock (linked h).

(** [event()]: schedule the event unless it is scheduled already. *)
Definition trigger (h : nat) : M unit :=
  modify_clock (fun c =>
    if linked h c then c
    else mkClock (last_tick c) (events c) (scheduled c ++ [(h, last_tick c)])).

(** [event.cancel()] *)
Definition cancel (h : nat) : M unit :=
  modify_clock (fun c =>
    mkClock (last_tick c) (events c) (unlink h (scheduled c))).

(** [Clock.schedule_once(callback, timeout)]: a new event, scheduled. *)
Definition schedule_once (cb : Callback) (t : Q) : M nat :=
  h <- get_clock (fun c => length (events c)) ;;
  modify_clock (fun c =>
    mkClock (last_tick c) (events c ++ [mkEvent cb t])
      (scheduled c ++ [(h, last_tick c)])) ;;
  ret h.

(** The clock's time moves on by [dt]. *)
Definition advance (dt : Q) (c : Clock) : Clock :=
  mkClock (last_tick c + dt) (events c) (scheduled c).

Section Behavior.

Variable host : Host.

Definition super_touch_down (touch : Touch) : M (option bool) :=
  emit (SuperTouchDown touch) ;; ret (super_on_touch_down host touch).

Definition super_touch_up (touch : Touch) : M (option bool) :=
  emit (SuperTouchUp touch) ;; ret (super_on_touch_up host touch).

Definition super_activate : M unit :=
  match super_trigger_action host with
  | Returns => emit SuperTriggerAction
  | Raises e => raise e
  end.

(** The [if "button" in touch.profile: if touch.button == ...] cascade of
    [on_touch_down]: the notification of a terminal press, if it is one. *)
Definition terminal_button (touch : Touch) : option Notification :=
  if in_profile "button" touch then
    if String.eqb (button touch) "right" then Some on_right_click
    else if String.eqb (button touch) "middle" then Some on_middle_click
    else if String.eqb (button touch) "scrollup" then Some on_scroll_up
    else if String.eqb (button touch) "scrolldown" then Some on_scroll_down
    else None
  else None.

Definition on_touch_down (touch : Touch) : M (option bool) :=
  if children_on_touch_down host touch then ret (Some true)
  else if collide_point host (pos touch) then
    modify_self (set__current_touch (Some touch)) ;;
    modify_self (set__after_long_press false) ;;
    modify_self (set__second_click false) ;;
    match terminal_button touch with
    | Some n => dispatch n ;; ret (Some true)
    | None =>
        lc <- get _long_clock ;;
        trigger lc ;;
        dc <- get _double_clock ;;
        armed <- is_triggered dc ;;
        if armed then
          modify_self (set__second_click true) ;;
          modify_self (set_state down) ;;
          cancel dc ;;
          dispatch on_double_click ;;
          ret (Some true)
        else
          enabled <- get double_click_enabled ;;
          if enabled then
            trigger dc ;;
            modify_self (set_state down) ;;
            ret (Some true)
          else super_touch_down touch
    end
  else ret None.

Definition on_touch_up (touch : Touch) : M (option bool) :=
  if children_on_touch_up host touch then ret (Some true)
  else if collide_point host (pos touch) then
    if is_mouse_scrolling touch then ret (Some true)
    else
      lc <- get _long_clock ;;
      armed <- is_triggered lc ;;
      if armed then
        cancel lc ;;
        enabled <- get double_click_enabled ;;
        if enabled then
          second <- get _second_click ;;
          (if second then modify_self (set_state normal) else ret tt) ;;
          ret (Some true)
        else
          modify_self (set_state normal) ;;
          super_touch_up touch
      else
        second <- get _second_click ;;
        if second then modify_self (set_state normal) ;; ret (Some true)
        else
          after <- get _after_long_press ;;
          if after then modify_self (set_state normal) ;; ret (Some true)
          else super_touch_up touch
  else ret None.

(** [not self.scroll_timeout] *)
Definition falsy (q : Q) : bool := Qeq_bool q 0.

Definition send_press : M unit :=
  lc <- get _long_clock ;;
  armed <- is_triggered lc ;;
  if armed then modify_self (set_state down)
  else
    st <- get scroll_timeout ;;
    (if falsy st then
       current <- get _current_touch ;;
       match current with
       | None => raise AttributeError   (* None has no [ud] *)
       | Some touch =>
           super_touch_down touch ;;
           let touch' :=
             mkTouch (uid touch) (pos touch) (profile touch) (button touch)
               true true in
           modify_self (set__current_touch (Some touch')) ;;
           super_touch_up touch' ;;
           ret tt
       end
     else except_AttributeError super_activate) ;;
    modify_self (set_state normal).

Definition long_pressed : M unit :=
  modify_self (set__after_long_press true) ;;
  dispatch on_long_press ;;
  dc <- get _double_clock ;;
  cancel dc.

Definition on_scroll_timeout (timeout_ms : Q) : M unit :=
  lt <- get long_time ;;
  modify_self (set_long_time (lt + timeout_ms * (1 # 1000))) ;;
  lt' <- get long_time ;;
  lc <- schedule_once long_pressed_cb lt' ;;
  modify_self (set__long_clock lc) ;;
  cancel lc ;;
  dt <- get double_time ;;
  modify_self (set_double_time (dt + timeout_ms * (1 # 1000))) ;;
  dt' <- get double_time ;;
  dc <- schedule_once send_press_cb dt' ;;
  modify_self (set__double_clock dc) ;;
  cancel dc.

(** [__init__], after the properties took their values. *)
Definition __init__ : M unit :=
  lt <- get long_time ;;
  lc <- schedule_once long_pressed_cb lt ;;
  modify_self (set__long_clock lc) ;;
  cancel lc ;;
  modify_self (set__after_long_press false) ;;
  dt <- get double_time ;;
  dc <- schedule_once send_press_cb dt ;;
  modify_self (set__double_clock dc) ;;
  cancel dc ;;
  modify_self (set__second_click false) ;;
  modify_self (set__current_touch None).

(** ** The clock's frame *)

Definition run_callback (cb : Callback) : M unit :=
  match cb with
  | long_pressed_cb => long_pressed
  | send_press_cb => send_press
  end.

(** The tick time at which event [h] was armed, when it is scheduled. *)
Definition armed_at (h : nat) (c : Clock) : option Q :=
  option_map snd (find (fun p => Nat.eqb (fst p) h) (scheduled c)).

(** The callback to run for event [h] in this frame: it is scheduled and
    its timeout has elapsed since it was armed. *)
Definition ready (h : nat) (c : Clock) : option Callback :=
  match armed_at h c, nth_error (events c) h with
  | Some t0, Some ev =>
      if Qle_bool (timeout ev) (last_tick c - t0) then Some (callback ev)
      else None
  | _, _ => None
  end.

(** One event of the frame: skipped when it was cancelled meanwhile or its
    timeout has not elapsed; otherwise unlinked, then called. *)
Definition process_event (h : nat) : M unit :=
  c <- get_clock (fun c => c) ;;
  match ready h c with
  | Some cb => cancel h ;; run_callback cb
  | None => ret tt
  end.

Fixpoint process_events (hs : list nat) : M unit :=
  match hs with
  | [] => ret tt
  | h :: rest => process_event h ;; process_events rest
  end.

(** A frame [dt] after the previous one. *)
Definition tick (dt : Q) : M unit :=
  modify_clock (advance dt) ;;
  snapshot <- get_clock (fun c => map fst (scheduled c)) ;;
  process_events snapshot.

(** Kivy's property setter: observers run only when the value changes. *)
Definition assign_scroll_timeout (v : Q) : M unit :=
  old <- get scroll_timeout ;;
  if Qeq_bool old v then ret tt
  else modify_self (set_scroll_timeout v) ;; on_scroll_timeout v.

(** ** Input streams *)

Inductive Input :=
| Press (touch : Touch)
| Release (touch : Touch)
| Tick (dt : Q)
| SetScrollTimeout (v : Q).

Definition step (i : Input) : M unit :=
  match i with
  | Press touch => on_touch_down touch ;; ret tt
  | Release touch => on_touch_up touch ;; ret tt
  | Tick dt => tick dt
  | SetScrollTimeout v => assign_scroll_timeout v
  end.

Fixpoint run (inputs : list Input) : M unit :=
  match inputs with
  | [] => ret tt
  | i :: rest => step i ;; run rest
  end.

End Behavior.

(** A fresh widget: the class defaults overridden by the keyword
    arguments, then [__init__]. *)
Definition blank (lt dt : Q) (enabled : bool) : World :=
  mkWorld (mkSelf lt dt enabled 0 0%nat false 0%nat false None normal)
          (mkClock 0 [] []) [].

Definition world_of {A} (r : Res A) : World :=
  match r with Ok _ w => w | Raised _ w => w end.

Definition fresh (lt dt : Q) (enabled : bool) : World :=
  world_of (__init__ (blank lt dt enabled)).

Definition defaults (enabled : bool) : World :=
  fresh (25 # 100) (2 # 10) enabled.

(** ** Reading the outputs as classifications

    A single click reaches the underlying behaviour either as a forwarded
    press followed by a forwarded release, or as one [trigger_action]; a
    release forwarded without a press before it is not a click. *)

Inductive Classification :=
| RightClick | MiddleClick | ScrollUp | ScrollDown
| DoubleClick | LongPress | SingleClick.

Definition classification_of (n : Notification) : Classification :=
  match n with
  | on_double_click => DoubleClick
  | on_middle_click => MiddleClick
  | on_right_click => RightClick
  | on_long_press => LongPress
  | on_scroll_up => ScrollUp
  | on_scroll_down => ScrollDown
  end.

Fixpoint classify_from (pressed : bool) (os : list Output)
  : list Classification :=
  match os with
  | [] => []
  | Dispatch n :: rest => classification_of n :: classify_from pressed rest
  | SuperTouchDown _ :: rest => classify_from true rest
  | SuperTouchUp _ :: rest =>
      if pressed then SingleClick :: classify_from false rest
      else classify_from false rest
  | SuperTriggerAction :: rest => SingleClick :: classify_from pressed rest
  end.

Definition classify (os : list Output) : list Classification :=
  classify_from false os.

(** The pairs (button, notification) of the terminal presses. *)
Definition terminal_kinds : list (string * Notification) :=
  [("right", on_right_click); ("middle", on_middle_click);
   ("scrollup", on_scroll_up); ("scrolldown", on_scroll_down)].





(** A press of the primary button or a plain touch: none of the four
    terminal kinds. *)
Definition primary (touch : Touch) : Prop := terminal_button touch = None.

(** Every scheduled handle is an event of the clock. *)
Definition clock_ok (c : Clock) : Prop :=
  Forall (fun p => (fst p < length (events c))%nat) (scheduled c).

(** The sum of a list of durations. *)
Definition total (ds : list Q) : Q := fold_right Qplus 0 ds.


(** The attributes right after the first three assignments of
    [on_touch_down]. *)
Definition began (touch : Touch) (s : Self) : Self :=
  set__second_click false
    (set__after_long_press false (set__current_touch (Some touch) s)).

(** No timer is scheduled, and the two timer attributes are distinct
    events that carry the current durations: the widget between two
    interactions. *)
Definition settled (w : World) : Prop :=
  scheduled (clock w) = [] /\
  _long_clock (self w) <> _double_clock (self w) /\
  nth_error (events (clock w)) (_long_clock (self w))
    = Some (mkEvent long_pressed_cb (long_time (self w))) /\
  nth_error (events (clock w)) (_double_clock (self w))
    = Some (mkEvent send_press_cb (double_time (self w))).

(** The configuration and the timer objects of [w'] are those of [w]. *)
Definition same_setup (w w' : World) : Prop :=
  events (clock w') = events (clock w) /\
  _long_clock (self w') = _long_clock (self w) /\
  _double_clock (self w') = _double_clock (self w) /\
  long_time (self w') = long_time (self w) /\
  double_time (self w') = double_time (self w) /\
  double_click_enabled (self w') = double_click_enabled (self w) /\
  scroll_timeout (self w') = scroll_timeout (self w).

(** Frames that follow each other, [ds] apart. *)
Definition hold (ds : list Q) : list Input := map Tick ds.

Definition forward (ds : list Q) : Prop := Forall (fun d => 0 <= d)%Q ds.

(** The clock after the frames [ds] when no event ran. *)
Definition elapse (ds : list Q) (c : Clock) : Clock :=
  fold_left (fun c d => advance d c) ds c.

(** Every scheduled event exists and has not reached its timeout at
    time [t]. *)
Definition pending_until (c : Clock) (t : Q) : Prop :=
  forall h t0, In (h, t0) (scheduled c) ->
    exists ev, nth_error (events c) h = Some ev /\ (t - t0 < timeout ev)%Q.

(** ** Episodes

    The interactions whose outcome the mixin decides: a terminal press, a
    short press, a press held into a long press, and two presses in a
    row.  [held], [waited] and [gap] are the frames that pass in between. *)




(** The press lands on the surface and no child takes it. *)
Definition lands (host : Host) (p : Touch) : Prop :=
  children_on_touch_down host p = false /\
  collide_point host (pos p) = true.



(** ** Concrete widgets and touches *)

(** A widget over [ButtonBehavior] that covers the whole window and has no
    children. *)
Definition button_host : Host :=
  mkHost (fun _ => true) (fun _ => false) (fun _ => false)
    (fun _ => Some true) (fun _ => Some true) Returns.


(** A widget that the pointer misses. *)
Definition far_host : Host :=
  mkHost (fun _ => false) (fun _ => false) (fun _ => false)
    (fun _ => Some false) (fun _ => Some false) Returns.

Definition mouse (b : string) : Touch :=
  mkTouch 1 (10, 10) ["pos"; "button"] b false false.

Definition left_touch : Touch := mouse "left".
Definition right_touch : Touch := mouse "right".
Definition wheel_touch : Touch := mouse "scrolldown".

(** The default widget with the left button down since [dt], seen before
    the clock has processed the frame. *)
Definition held_world (enabled : bool) (dt : Q) : World :=
  let w := world_of (on_touch_down button_host left_touch (defaults enabled)) in
  mkWorld (self w) (advance dt (clock w)) (outputs w).

(** The default widget, detection on, after a click and 50 ms. *)
Definition clicked_world : World :=
  world_of (run button_host
              [Press left_touch; Tick (5 # 100); Release left_touch;
               Tick (5 # 100)]
              (defaults true)).

(** The default widget inside a [ScrollView] with a 55 ms timeout. *)
Definition scrolled_world : World :=
  world_of (assign_scroll_timeout 55 (defaults true)).



(** A press released after 220 ms, then one second of frames. *)
Definition slow_click : list Input :=
  Press left_touch :: hold [22 # 100] ++ Release left_touch :: hold [1].


(** ** Vocabulary for whole runs *)

(** An input that is a touch or a frame, not a property assignment. *)
Definition touch_input (i : Input) : Prop :=
  match i with
  | SetScrollTimeout _ => False
  | _ => True
  end.



(** A scheduling list over [n] events: every handle exists and none is
    scheduled twice. *)
Definition sched_ok (n : nat) (l : list (nat * Q)) : Prop :=
  Forall (fun p => (fst p < n)%nat) l /\ NoDup (map fst l).

(** The clock and the two timer attributes fit together: the scheduling
    list is sound, and [_long_clock] and [_double_clock] are two different
    events of the clock that call [long_pressed] and [send_press] after
    the current [long_time] and [double_time]. *)
Definition handles_ok (w : World) : Prop :=
  sched_ok (length (events (clock w))) (scheduled (clock w)) /\
  _long_clock (self w) <> _double_clock (self w) /\
  nth_error (events (clock w)) (_long_clock (self w))
    = Some (mkEvent long_pressed_cb (long_time (self w))) /\
  nth_error (events (clock w)) (_double_clock (self w))
    = Some (mkEvent send_press_cb (double_time (self w))).

(** A release that [on_touch_up] does not handle: a child takes it, it
    happens off the surface, or it is a wheel release. *)
Definition ignored (host : Host) (r : Touch) : Prop :=
  children_on_touch_up host r = true \/
  collide_point host (pos r) = false \/
  is_mouse_scrolling r = true.

(** A widget whose [trigger_action] fails with another exception. *)
Definition faulty_host : Host :=
  mkHost (fun _ => true) (fun _ => false) (fun _ => false)
    (fun _ => Some true) (fun _ => Some true) (Raises OtherException).

(** A horizontal wheel event: Kivy's button is ["scrollleft"]. *)
Definition wheel_left_touch : Touch := mouse "scrollleft".

(** The widget in a scroll view after a click, the double-click timer
    pending. *)
Definition scrolled_clicked_world : World :=
  world_of (run faulty_host
              [Press left_touch; Tick (5 # 100); Release left_touch]
              scrolled_world).

(** * Properties *)

Ltac run_monad :=
  unfold bind, ret, get, get_clock, modify_self, modify_clock, emit,
    dispatch, is_triggered, trigger, cancel, raise; cbn.

(** *** Scheduling list *)

Lemma linked_unlink_same (h : nat) (l : list (nat * Q)) :
  existsb (fun p => Nat.eqb (fst p) h) (unlink h l) = false.
Proof.
  unfold unlink.
  induction l as [| [h' t] l IH]; cbn; [reflexivity |].
  destruct (Nat.eqb h' h) eqn:E; cbn; [exact IH |].
  now rewrite E.
Qed.

Lemma linked_unlink_other (h h' : nat) (l : list (nat * Q)) :
  h <> h' ->
  existsb (fun p => Nat.eqb (fst p) h) (unlink h' l) =
  existsb (fun p => Nat.eqb (fst p) h) l.
Proof.
  intros Hne. unfold unlink.
  induction l as [| [k t] l IH]; cbn; [reflexivity |].
  destruct (Nat.eqb k h') eqn:E; cbn.
  - apply Nat.eqb_eq in E; subst k.
    assert (Nat.eqb h' h = false) as -> by (apply Nat.eqb_neq; congruence).
    exact IH.
  - now rewrite IH.
Qed.

Lemma linked_trigger (h k : nat) (c : Clock) :
  linked h c = true ->
  linked h (if linked k c then c
            else mkClock (last_tick c) (events c)
                   (scheduled c ++ [(k, last_tick c)])) = true.
Proof.
  intros H. destruct (linked k c); [exact H |].
  unfold linked in *; cbn. rewrite existsb_app, H. reflexivity.
Qed.

Lemma ready_due (h : nat) (c : Clock) (t0 : Q) (ev : ClockEvent) :
  armed_at h c = Some t0 ->
  nth_error (events c) h = Some ev ->
  (timeout ev <= last_tick c - t0)%Q ->
  ready h c = Some (callback ev).
Proof.
  intros Ha He Hd. unfold ready. rewrite Ha, He.
  apply Qle_bool_iff in Hd. now rewrite Hd.
Qed.

Lemma falsy_positive (q : Q) : (0 < q)%Q -> falsy q = false.
Proof.
  intros Hq. unfold falsy. destruct (Qeq_bool q 0) eqn:E; [| reflexivity].
  apply Qeq_bool_iff in E. rewrite E in Hq. now apply Qlt_irrefl in Hq.
Qed.


Lemma unlink_fresh (n k : nat) (t : Q) (l : list (nat * Q)) :
  Forall (fun p => (fst p < n)%nat) l -> (n <= k)%nat ->
  unlink k (l ++ [(k, t)]) = l.
Proof.
  intros Hl Hk. unfold unlink.
  induction Hl as [| [h t'] l Hh _ IH]; cbn.
  - now rewrite Nat.eqb_refl.
  - cbn in Hh.
    assert (Nat.eqb h k = false) as -> by (apply Nat.eqb_neq; lia).
    cbn. now rewrite IH.
Qed.

Lemma unlink_cons_same (h : nat) (t : Q) (l : list (nat * Q)) :
  unlink h ((h, t) :: l) = unlink h l.
Proof. unfold unlink; cbn. now rewrite Nat.eqb_refl. Qed.

Lemma unlink_cons_other (h k : nat) (t : Q) (l : list (nat * Q)) :
  k <> h -> unlink h ((k, t) :: l) = (k, t) :: unlink h l.
Proof.
  intros Hne. unfold unlink; cbn.
  now assert (Nat.eqb k h = false) as -> by (apply Nat.eqb_neq; exact Hne).
Qed.

Lemma unlink_nil (h : nat) : unlink h [] = [].
Proof. reflexivity. Qed.

Lemma total_nonneg (ds : list Q) : forward ds -> (0 <= total ds)%Q.
Proof.
  induction 1 as [| d ds Hd _ IH]; cbn; [apply Qle_refl |].
  fold (total ds). lra.
Qed.

Lemma events_elapse ds c : events (elapse ds c) = events c.
Proof.
  revert c; induction ds as [| d ds IH]; intros c; cbn;
    [| rewrite IH]; reflexivity.
Qed.

Lemma scheduled_elapse ds c : scheduled (elapse ds c) = scheduled c.
Proof.
  revert c; induction ds as [| d ds IH]; intros c; cbn;
    [| rewrite IH]; reflexivity.
Qed.


Lemma ready_not_yet (h : nat) (c : Clock) (t d : Q) :
  pending_until c t -> (last_tick c + d <= t)%Q ->
  ready h (advance d c) = None.
Proof.
  intros Hp Ht. unfold ready, armed_at. cbn.
  destruct (find _ (scheduled c)) as [[k t0] |] eqn:E; cbn; [| reflexivity].
  apply find_some in E. destruct E as [Hin Hk]. cbn in Hk.
  apply Nat.eqb_eq in Hk. subst k.
  destruct (Hp h t0 Hin) as (ev & -> & Hlt).
  destruct (Qle_bool _ _) eqn:E; [| reflexivity].
  apply Qle_bool_iff in E. lra.
Qed.


Section Frame.

Variable host : Host.

Lemma process_events_quiet (hs : list nat) (w : World) :
  (forall h, In h hs -> ready h (clock w) = None) ->
  process_events host hs w = Ok tt w.
Proof.
  induction hs as [| h hs IH]; intros Hq; cbn; [reflexivity |].
  unfold bind at 1. unfold process_event. unfold bind, get_clock.
  rewrite (Hq h) by (now left). unfold ret.
  apply IH. intros k Hk. apply Hq. now right.
Qed.

Lemma tick_quiet (d : Q) (w : World) :
  (forall h, ready h (advance d (clock w)) = None) ->
  tick host d w = Ok tt (mkWorld (self w) (advance d (clock w)) (outputs w)).
Proof.
  intros Hq. unfold tick, bind, modify_clock, get_clock.
  apply process_events_quiet. intros h _. apply Hq.
Qed.


Lemma hold_idle (ds : list Q) (w : World) :
  scheduled (clock w) = [] ->
  run host (hold ds) w
  = Ok tt (mkWorld (self w) (elapse ds (clock w)) (outputs w)).
Proof.
  revert w. induction ds as [| d ds IH]; intros w Hs.
  - destruct w; reflexivity.
  - cbn [hold map run step]. unfold bind at 1.
    rewrite tick_quiet.
    + unfold hold in IH. rewrite IH; cbn; [reflexivity | exact Hs].
    + intros h. unfold ready, armed_at; cbn. now rewrite Hs.
Qed.

(** C9.  A touch down or up that misses the surface and that no child
    consumes is not consumed (the handler returns [None]) and the whole
    world is unchanged: current touch, both flags, both timers, the
    surface state. *)
Theorem touch_outside_is_ignored (touch : Touch) (w : World) :
  collide_point host (pos touch) = false ->
  (children_on_touch_down host touch = false ->
     on_touch_down host touch w = Ok None w) /\
  (children_on_touch_up host touch = false ->
     on_touch_up host touch w = Ok None w).
Proof.
  intros Hmiss; split; intros Hchild.
  - unfold on_touch_down. now rewrite Hchild, Hmiss.
  - unfold on_touch_up. now rewrite Hchild, Hmiss.
Qed.

(** The release handler never dispatches a notification and never forwards
    a press: it leaves the outputs alone or forwards this one release. *)
Lemma on_touch_up_outputs (touch : Touch) (w : World) :
  exists r w2,
    on_touch_up host touch w = Ok r w2 /\
    (outputs w2 = outputs w \/
     outputs w2 = outputs w ++ [SuperTouchUp touch]).
Proof.
  unfold on_touch_up, super_touch_up.
  destruct (children_on_touch_up host touch); [run_monad; eauto |].
  destruct (collide_point host (pos touch)); [| run_monad; eauto].
  destruct (is_mouse_scrolling touch); [run_monad; eauto |].
  run_monad.
  destruct (linked (_long_clock (self w)) (clock w)); cbn.
  - destruct (double_click_enabled (self w)); cbn.
    + destruct (_second_click (self w)); cbn; eauto.
    + eauto.
  - destruct (_second_click (self w)); cbn; eauto.
    destruct (_after_long_press (self w)); cbn; eauto.
Qed.

(** C5.  A press whose button is right, middle, scrollup or scrolldown
    dispatches exactly its own notification and is consumed; the clock, and
    with it both timers, is untouched.  The matching release dispatches no
    notification (at most the release itself is forwarded), and the release
    of a scroll press is swallowed with no effect at all. *)
Theorem terminal_press_dispatches_once
    (touch : Touch) (n : Notification) (w : World) :
  children_on_touch_down host touch = false ->
  collide_point host (pos touch) = true ->
  in_profile "button" touch = true ->
  In (button touch, n) terminal_kinds ->
  let w1 :=
    mkWorld
      (set__second_click false
         (set__after_long_press false
            (set__current_touch (Some touch) (self w))))
      (clock w) (outputs w ++ [Dispatch n]) in
  on_touch_down host touch w = Ok (Some true) w1 /\
  (exists r w2,
     on_touch_up host touch w1 = Ok r w2 /\
     (outputs w2 = outputs w1 \/
      outputs w2 = outputs w1 ++ [SuperTouchUp touch])) /\
  (n = on_scroll_up \/ n = on_scroll_down ->
   on_touch_up host touch w1 = Ok (Some true) w1).
Proof.
  intros Hchild Hhit Hprof Hkind w1; subst w1.
  assert (Hterm : terminal_button touch = Some n).
  { unfold terminal_button; rewrite Hprof.
    cbn in Hkind.
    destruct Hkind as [H | [H | [H | [H | []]]]];
      injection H as Hb Hn; rewrite <- Hb, <- Hn; reflexivity. }
  split; [| split].
  - unfold on_touch_down. rewrite Hchild, Hhit. run_monad.
    rewrite Hterm. reflexivity.
  - apply on_touch_up_outputs.
  - intros Hscroll. unfold on_touch_up.
    destruct (children_on_touch_up host touch); [reflexivity |].
    rewrite Hhit.
    assert (Hs : is_mouse_scrolling touch = true).
    { unfold is_mouse_scrolling; rewrite Hprof; cbn in Hkind |- *.
      destruct Hkind as [H | [H | [H | [H | []]]]];
        injection H as Hb Hn; rewrite <- Hn in Hscroll;
        try (destruct Hscroll; discriminate); rewrite <- Hb; reflexivity. }
    now rewrite Hs.
Qed.

(** C3.  A primary press that arrives while the double-click timer is armed
    is consumed; within that very call the double-click timer is cancelled,
    the surface becomes [down] and exactly one [on_double_click] is
    dispatched, with nothing forwarded to the underlying behaviour.  With
    double-click detection enabled the release that follows is consumed as
    well and adds no output, so the pair delivers no single click. *)
Theorem second_press_is_double_click (touch : Touch) (w : World) :
  children_on_touch_down host touch = false ->
  collide_point host (pos touch) = true ->
  primary touch ->
  linked (_double_clock (self w)) (clock w) = true ->
  exists w1,
    on_touch_down host touch w = Ok (Some true) w1 /\
    linked (_double_clock (self w1)) (clock w1) = false /\
    state (self w1) = down /\
    _second_click (self w1) = true /\
    outputs w1 = outputs w ++ [Dispatch on_double_click] /\
    (double_click_enabled (self w) = true ->
     forall release : Touch,
       collide_point host (pos release) = true ->
       exists w2,
         on_touch_up host release w1 = Ok (Some true) w2 /\
         outputs w2 = outputs w1).
Proof.
  intros Hchild Hhit Hprim Harmed.
  unfold on_touch_down. rewrite Hchild, Hhit. run_monad. rewrite Hprim.
  rewrite linked_trigger by exact Harmed. cbn.
  eexists; split; [reflexivity |]. cbn.
  split; [apply linked_unlink_same |].
  do 3 (split; [reflexivity |]).
  intros Hen release Hrel.
  unfold on_touch_up. rewrite Hrel.
  destruct (children_on_touch_up host release); [run_monad; eauto |].
  destruct (is_mouse_scrolling release); [run_monad; eauto |].
  run_monad.
  match goal with |- context [if ?b then _ else _] => destruct b end;
    cbn; [rewrite Hen; cbn |]; eauto.
Qed.

(** C2.  When the long-press timer fires, [long_pressed] sets
    [_after_long_press], dispatches exactly one [on_long_press] and cancels
    the double-click timer whatever its state; the release on the surface
    that follows is consumed and forwards nothing, so no single click is
    delivered. *)
Theorem long_press_timer_fires (w : World) (t0 : Q) (ev : ClockEvent) :
  let lc := _long_clock (self w) in
  let dc := _double_clock (self w) in
  armed_at lc (clock w) = Some t0 ->
  nth_error (events (clock w)) lc = Some ev ->
  callback ev = long_pressed_cb ->
  (timeout ev <= last_tick (clock w) - t0)%Q ->
  let w1 :=
    mkWorld (set__after_long_press true (self w))
      (mkClock (last_tick (clock w)) (events (clock w))
         (unlink dc (unlink lc (scheduled (clock w)))))
      (outputs w ++ [Dispatch on_long_press]) in
  process_event host lc w = Ok tt w1 /\
  linked dc (clock w1) = false /\
  forall release : Touch,
    collide_point host (pos release) = true ->
    exists w2,
      on_touch_up host release w1 = Ok (Some true) w2 /\
      outputs w2 = outputs w1.
Proof.
  intros lc dc Ha He Hcb Hd w1.
  split; [| split].
  - unfold process_event. run_monad.
    rewrite (ready_due _ _ _ _ Ha He Hd), Hcb. reflexivity.
  - apply linked_unlink_same.
  - intros release Hrel. unfold on_touch_up. rewrite Hrel.
    destruct (children_on_touch_up host release); [run_monad; eauto |].
    destruct (is_mouse_scrolling release); [run_monad; eauto |].
    run_monad. fold lc dc.
    assert (Hl : existsb (fun p => Nat.eqb (fst p) lc)
                   (unlink dc (unlink lc (scheduled (clock w)))) = false).
    { destruct (Nat.eq_dec lc dc) as [E | E].
      - rewrite <- E. apply linked_unlink_same.
      - rewrite linked_unlink_other by exact E. apply linked_unlink_same. }
    unfold linked; cbn. rewrite Hl; cbn.
    destruct (_second_click (self w)); cbn; eauto.
Qed.

(** C8.  When the double-click timer fires while the long-press timer is
    still armed, [send_press] only sets the surface [down]: nothing is
    forwarded, [trigger_action] is not called, the surface is not reset to
    [normal]; afterwards the long-press timer is still armed and the
    double-click timer is not. *)
Theorem double_timer_fires_during_hold
    (w : World) (t0 : Q) (ev : ClockEvent) :
  let lc := _long_clock (self w) in
  let dc := _double_clock (self w) in
  lc <> dc ->
  linked lc (clock w) = true ->
  armed_at dc (clock w) = Some t0 ->
  nth_error (events (clock w)) dc = Some ev ->
  callback ev = send_press_cb ->
  (timeout ev <= last_tick (clock w) - t0)%Q ->
  let w1 :=
    mkWorld (set_state down (self w))
      (mkClock (last_tick (clock w)) (events (clock w))
         (unlink dc (scheduled (clock w))))
      (outputs w) in
  process_event host dc w = Ok tt w1 /\
  linked lc (clock w1) = true /\
  linked dc (clock w1) = false.
Proof.
  intros lc dc Hne Hl Ha He Hcb Hd w1.
  assert (Hl1 : linked lc (clock w1) = true).
  { unfold linked, w1; cbn. rewrite linked_unlink_other by exact Hne.
    exact Hl. }
  split; [| split].
  - unfold process_event. run_monad.
    rewrite (ready_due _ _ _ _ Ha He Hd), Hcb. cbn.
    unfold send_press. run_monad. fold lc dc.
    unfold linked, w1 in Hl1; cbn in Hl1. unfold linked; cbn.
    rewrite Hl1. reflexivity.
  - exact Hl1.
  - apply linked_unlink_same.
Qed.


(** Any other exception of [trigger_action] does leave [send_press], and
    the surface is then not reset. *)
Lemma send_press_other_exception (w : World) :
  linked (_long_clock (self w)) (clock w) = false ->
  (0 < scroll_timeout (self w))%Q ->
  super_trigger_action host = Raises OtherException ->
  send_press host w = Raised OtherException w.
Proof.
  intros Hl Hst Hx.
  unfold send_press, except_AttributeError, super_activate.
  run_monad. rewrite Hl, (falsy_positive _ Hst), Hx.
  destruct w; reflexivity.
Qed.





(** *** Steps of an interaction that starts on a settled widget *)

Lemma press_settled (p : Touch) (w : World) :
  settled w ->
  children_on_touch_down host p = false ->
  collide_point host (pos p) = true ->
  primary p ->
  let lc := _long_clock (self w) in
  let dc := _double_clock (self w) in
  let now := last_tick (clock w) in
  on_touch_down host p w =
  if double_click_enabled (self w) then
    Ok (Some true)
      (mkWorld (set_state down (began p (self w)))
         (mkClock now (events (clock w)) [(lc, now); (dc, now)])
         (outputs w))
  else
    Ok (super_on_touch_down host p)
      (mkWorld (began p (self w))
         (mkClock now (events (clock w)) [(lc, now)])
         (outputs w ++ [SuperTouchDown p])).
Proof.
  intros (Hs & Hne & _ & _) Hchild Hhit Hprim lc dc now.
  unfold on_touch_down. rewrite Hchild, Hhit. run_monad. rewrite Hprim.
  cbn. fold lc dc now. unfold linked. rewrite Hs. cbn.
  assert (Nat.eqb lc dc = false) as -> by (apply Nat.eqb_neq; exact Hne).
  cbn. destruct (double_click_enabled (self w)); cbn.
  - unfold linked; cbn.
    assert (Nat.eqb lc dc = false) as -> by (apply Nat.eqb_neq; exact Hne).
    reflexivity.
  - unfold super_touch_down. run_monad. reflexivity.
Qed.



Lemma tick_unfold (d : Q) (w : World) :
  tick host d w =
  process_events host (map fst (scheduled (clock w)))
    (mkWorld (self w) (advance d (clock w)) (outputs w)).
Proof. reflexivity. Qed.




(** Only the double-click timer is scheduled and its time has come. *)
Lemma tick_fires_send_press (d t0 tau : Q) (w : World) :
  let dc := _double_clock (self w) in
  scheduled (clock w) = [(dc, t0)] ->
  nth_error (events (clock w)) dc = Some (mkEvent send_press_cb tau) ->
  (tau <= last_tick (clock w) + d - t0)%Q ->
  tick host d w =
  send_press host
    (mkWorld (self w)
       (mkClock (last_tick (clock w) + d) (events (clock w)) [])
       (outputs w)).
Proof.
  intros dc Hs He Hd. rewrite tick_unfold, Hs. cbn [map fst process_events].
  unfold bind at 1. unfold process_event. unfold bind at 1. unfold get_clock.
  cbn [clock advance].
  rewrite (ready_due dc _ t0 (mkEvent send_press_cb tau)).
  - unfold bind, cancel, modify_clock, run_callback, ret.
    cbn [callback clock scheduled events last_tick self outputs advance
         process_events].
    rewrite Hs, unlink_cons_same, unlink_nil.
    destruct (send_press host _) as [[] ? | ? ?]; reflexivity.
  - unfold armed_at. cbn [advance scheduled]. rewrite Hs. cbn.
    now rewrite Nat.eqb_refl.
  - exact He.
  - exact Hd.
Qed.

Lemma pending_single (h : nat) (t0 : Q) (ev : ClockEvent) (c : Clock) (t : Q) :
  scheduled c = [(h, t0)] ->
  nth_error (events c) h = Some ev ->
  (t - t0 < timeout ev)%Q ->
  pending_until c t.
Proof.
  intros Hs He Ht k t1 Hin. rewrite Hs in Hin.
  destruct Hin as [E | []]. injection E as <- <-. eauto.
Qed.




(** *** The frame, event by event *)

Lemma process_events_cons (h : nat) (hs : list nat) (w w1 : World) :
  process_event host h w = Ok tt w1 ->
  process_events host (h :: hs) w = process_events host hs w1.
Proof. intros H. cbn [process_events]. unfold bind. now rewrite H. Qed.

Lemma process_event_skip (h : nat) (w : World) :
  ready h (clock w) = None -> process_event host h w = Ok tt w.
Proof.
  intros H. unfold process_event, bind, get_clock. now rewrite H.
Qed.

Lemma process_event_run (h : nat) (cb : Callback) (w : World) :
  ready h (clock w) = Some cb ->
  process_event host h w =
  run_callback host cb
    (mkWorld (self w)
       (mkClock (last_tick (clock w)) (events (clock w))
          (unlink h (scheduled (clock w))))
       (outputs w)).
Proof.
  intros H. unfold process_event, bind, get_clock. rewrite H.
  unfold cancel, modify_clock. reflexivity.
Qed.

Lemma long_pressed_world (w : World) :
  long_pressed w =
  Ok tt
    (mkWorld (set__after_long_press true (self w))
       (mkClock (last_tick (clock w)) (events (clock w))
          (unlink (_double_clock (self w)) (scheduled (clock w))))
       (outputs w ++ [Dispatch on_long_press])).
Proof. reflexivity. Qed.

Lemma send_press_held (w : World) :
  linked (_long_clock (self w)) (clock w) = true ->
  send_press host w =
  Ok tt (mkWorld (set_state down (self w)) (clock w) (outputs w)).
Proof.
  intros Hl. unfold send_press. run_monad. now rewrite Hl.
Qed.

Lemma ready_early (h : nat) (c : Clock) (t0 : Q) (ev : ClockEvent) :
  armed_at h c = Some t0 ->
  nth_error (events c) h = Some ev ->
  (last_tick c - t0 < timeout ev)%Q ->
  ready h c = None.
Proof.
  intros Ha He Hd. unfold ready. rewrite Ha, He.
  destruct (Qle_bool _ _) eqn:E; [| reflexivity].
  apply Qle_bool_iff in E. lra.
Qed.

Lemma ready_unscheduled (h : nat) (c : Clock) :
  armed_at h c = None -> ready h c = None.
Proof. intros Ha. unfold ready. now rewrite Ha. Qed.

(** Only the long-press timer is scheduled and its time has come. *)
Lemma tick_fires_long_pressed (d t0 tau : Q) (w : World) :
  let lc := _long_clock (self w) in
  scheduled (clock w) = [(lc, t0)] ->
  nth_error (events (clock w)) lc = Some (mkEvent long_pressed_cb tau) ->
  (tau <= last_tick (clock w) + d - t0)%Q ->
  tick host d w =
  Ok tt
    (mkWorld (set__after_long_press true (self w))
       (mkClock (last_tick (clock w) + d) (events (clock w)) [])
       (outputs w ++ [Dispatch on_long_press])).
Proof.
  intros lc Hs He Hd. rewrite tick_unfold, Hs. cbn [map fst].
  erewrite process_events_cons.
  2:{ rewrite (process_event_run lc long_pressed_cb).
      - cbn [run_callback]. rewrite long_pressed_world.
        cbn [self clock outputs advance scheduled events last_tick].
        rewrite Hs, unlink_cons_same, !unlink_nil. reflexivity.
      - apply (ready_due lc _ t0 (mkEvent long_pressed_cb tau));
          cbn [clock advance events last_tick]; [| exact He | exact Hd].
        unfold armed_at. cbn [advance scheduled]. rewrite Hs. cbn.
        now rewrite Nat.eqb_refl. }
  reflexivity.
Qed.

(** Both timers are scheduled, the long-press timer first, and the
    long-press timer is due: it runs, and cancels the other one. *)
Lemma tick_long_pressed_preempts (d t0 t1 tau : Q) (w : World) :
  let lc := _long_clock (self w) in
  let dc := _double_clock (self w) in
  lc <> dc ->
  scheduled (clock w) = [(lc, t0); (dc, t1)] ->
  nth_error (events (clock w)) lc = Some (mkEvent long_pressed_cb tau) ->
  (tau <= last_tick (clock w) + d - t0)%Q ->
  tick host d w =
  Ok tt
    (mkWorld (set__after_long_press true (self w))
       (mkClock (last_tick (clock w) + d) (events (clock w)) [])
       (outputs w ++ [Dispatch on_long_press])).
Proof.
  intros lc dc Hne Hs He Hd. rewrite tick_unfold, Hs. cbn [map fst].
  erewrite process_events_cons.
  2:{ rewrite (process_event_run lc long_pressed_cb).
      - cbn [run_callback]. rewrite long_pressed_world.
        cbn [self clock outputs advance scheduled events last_tick].
        fold dc. rewrite Hs, unlink_cons_same.
        rewrite (unlink_cons_other lc dc) by congruence.
        rewrite unlink_nil, unlink_cons_same, unlink_nil. reflexivity.
      - apply (ready_due lc _ t0 (mkEvent long_pressed_cb tau));
          cbn [clock advance events last_tick]; [| exact He | exact Hd].
        unfold armed_at. cbn [advance scheduled]. rewrite Hs. cbn.
        now rewrite Nat.eqb_refl. }
  erewrite process_events_cons.
  2:{ apply process_event_skip. apply ready_unscheduled. reflexivity. }
  reflexivity.
Qed.

(** Both timers are scheduled and only the double-click timer is due: the
    press is still held, [send_press] shows the surface pressed. *)
Lemma tick_send_press_defers (d t0 t1 tau_l tau_d : Q) (w : World) :
  let lc := _long_clock (self w) in
  let dc := _double_clock (self w) in
  lc <> dc ->
  scheduled (clock w) = [(lc, t0); (dc, t1)] ->
  nth_error (events (clock w)) lc = Some (mkEvent long_pressed_cb tau_l) ->
  nth_error (events (clock w)) dc = Some (mkEvent send_press_cb tau_d) ->
  (last_tick (clock w) + d - t0 < tau_l)%Q ->
  (tau_d <= last_tick (clock w) + d - t1)%Q ->
  tick host d w =
  Ok tt
    (mkWorld (set_state down (self w))
       (mkClock (last_tick (clock w) + d) (events (clock w)) [(lc, t0)])
       (outputs w)).
Proof.
  intros lc dc Hne Hs Hel Hed Hl Hd. rewrite tick_unfold, Hs. cbn [map fst].
  erewrite process_events_cons.
  2:{ apply process_event_skip.
      apply (ready_early lc _ t0 (mkEvent long_pressed_cb tau_l));
        cbn [clock advance events last_tick timeout];
        [| exact Hel | exact Hl].
      unfold armed_at. cbn [advance scheduled]. rewrite Hs. cbn.
      now rewrite Nat.eqb_refl. }
  erewrite process_events_cons.
  2:{ rewrite (process_event_run dc send_press_cb).
      - cbn [run_callback]. rewrite send_press_held.
        + cbn [self clock outputs advance scheduled events last_tick].
          rewrite Hs. rewrite (unlink_cons_other dc lc) by exact Hne.
          rewrite unlink_cons_same, unlink_nil. reflexivity.
        + cbn [self clock outputs advance scheduled events last_tick].
          rewrite Hs. rewrite (unlink_cons_other dc lc) by exact Hne.
          rewrite unlink_cons_same, unlink_nil. unfold linked. cbn.
          fold lc. now rewrite Nat.eqb_refl.
      - apply (ready_due dc _ t1 (mkEvent send_press_cb tau_d));
          cbn [clock advance events last_tick]; [| exact Hed | exact Hd].
        unfold armed_at. cbn [advance scheduled]. rewrite Hs. cbn.
        assert (Nat.eqb lc dc = false) as ->
            by (apply Nat.eqb_neq; exact Hne).
        now rewrite Nat.eqb_refl. }
  reflexivity.
Qed.

Lemma set_state_same (v : ButtonState) (s : Self) :
  state s = v -> set_state v s = s.
Proof. intros <-. destruct s; reflexivity. Qed.

(** *** A press that stays down *)

(** Only the long-press timer is pending: it fires in the first frame
    where [tau] has elapsed, once. *)
Lemma long_hold_alone (ds : list Q) (t0 tau : Q) (w : World) :
  forward ds ->
  scheduled (clock w) = [(_long_clock (self w), t0)] ->
  nth_error (events (clock w)) (_long_clock (self w))
    = Some (mkEvent long_pressed_cb tau) ->
  (last_tick (clock w) - t0 < tau)%Q ->
  (tau <= last_tick (clock w) + total ds - t0)%Q ->
  exists w',
    run host (hold ds) w = Ok tt w' /\
    self w' = set__after_long_press true (self w) /\
    outputs w' = outputs w ++ [Dispatch on_long_press] /\
    scheduled (clock w') = [] /\
    events (clock w') = events (clock w).
Proof.
  intros Hf. revert w.
  induction Hf as [| d ds Hd Hf IH]; intros w Hs He Hnot Hdue.
  - cbn in Hdue. lra.
  - pose proof (total_nonneg ds Hf) as Hn.
    cbn [hold map run step total fold_right] in *. fold (total ds) in *.
    unfold bind at 1.
    destruct (Qlt_le_dec (last_tick (clock w) + d - t0) tau) as [Hlt | Hle].
    + rewrite tick_quiet.
      2:{ intros h. apply (ready_not_yet h _ (last_tick (clock w) + d)).
          - apply (pending_single (_long_clock (self w)) t0
                     (mkEvent long_pressed_cb tau)); cbn; assumption.
          - lra. }
      destruct (IH (mkWorld (self w) (advance d (clock w)) (outputs w)))
        as (w' & Hrun & Hrest); cbn; try assumption; [lra |].
      exists w'. split; [exact Hrun | exact Hrest].
    + rewrite (tick_fires_long_pressed d t0 tau) by assumption.
      unfold hold in *. rewrite hold_idle by reflexivity.
      eexists; split; [reflexivity |]. cbn.
      rewrite scheduled_elapse, events_elapse. auto.
Qed.

(** Both timers are pending and the surface shows pressed: whichever of
    them comes first, the frames end with one [on_long_press] and nothing
    else. *)
Lemma long_hold_both (ds : list Q) (t0 t1 tau_l tau_d : Q) (w : World) :
  forward ds ->
  _long_clock (self w) <> _double_clock (self w) ->
  scheduled (clock w)
    = [(_long_clock (self w), t0); (_double_clock (self w), t1)] ->
  nth_error (events (clock w)) (_long_clock (self w))
    = Some (mkEvent long_pressed_cb tau_l) ->
  nth_error (events (clock w)) (_double_clock (self w))
    = Some (mkEvent send_press_cb tau_d) ->
  state (self w) = down ->
  (last_tick (clock w) - t0 < tau_l)%Q ->
  (tau_l <= last_tick (clock w) + total ds - t0)%Q ->
  exists w',
    run host (hold ds) w = Ok tt w' /\
    self w' = set__after_long_press true (self w) /\
    outputs w' = outputs w ++ [Dispatch on_long_press] /\
    scheduled (clock w') = [] /\
    events (clock w') = events (clock w).
Proof.
  intros Hf. revert w.
  induction Hf as [| d ds Hd Hf IH];
    intros w Hne Hs Hel Hed Hdown Hnot Hdue.
  - cbn in Hdue. lra.
  - pose proof (total_nonneg ds Hf) as Hn.
    cbn [hold map run step total fold_right] in *. fold (total ds) in *.
    unfold bind at 1.
    destruct (Qlt_le_dec (last_tick (clock w) + d - t0) tau_l) as [Hlt | Hle].
    + destruct (Qlt_le_dec (last_tick (clock w) + d - t1) tau_d)
        as [Hlt' | Hle'].
      * rewrite tick_quiet.
        2:{ intros h. apply (ready_not_yet h _ (last_tick (clock w) + d));
              [| lra].
            intros k t2 Hin. rewrite Hs in Hin.
            destruct Hin as [E | [E | []]]; injection E as <- <-;
              eexists; (split; [eassumption |]); cbn; assumption. }
        destruct (IH (mkWorld (self w) (advance d (clock w)) (outputs w)))
          as (w' & Hrun & Hrest); cbn; try assumption; [lra |].
        exists w'. split; [exact Hrun | exact Hrest].
      * rewrite (tick_send_press_defers d t0 t1 tau_l tau_d)
          by assumption.
        rewrite (set_state_same down) by exact Hdown.
        destruct (long_hold_alone ds t0 tau_l
                    (mkWorld (self w)
                       (mkClock (last_tick (clock w) + d) (events (clock w))
                          [(_long_clock (self w), t0)])
                       (outputs w)))
          as (w' & Hrun & Hrest); cbn; try assumption;
          try reflexivity; [lra |].
        exists w'. split; [exact Hrun | exact Hrest].
    + rewrite (tick_long_pressed_preempts d t0 t1 tau_l) by assumption.
      unfold hold in *. rewrite hold_idle by reflexivity.
      eexists; split; [reflexivity |]. cbn.
      rewrite scheduled_elapse, events_elapse. auto.
Qed.



(** *** Running inputs one after the other *)


Lemma run_press (p : Touch) (rest : list Input) (w w1 : World) r :
  on_touch_down host p w = Ok r w1 ->
  run host (Press p :: rest) w = run host rest w1.
Proof. intros H. cbn. unfold bind, ret. now rewrite H. Qed.

Lemma run_release (p : Touch) (rest : list Input) (w w1 : World) r :
  on_touch_up host p w = Ok r w1 ->
  run host (Release p :: rest) w = run host rest w1.
Proof. intros H. cbn. unfold bind, ret. now rewrite H. Qed.


(** *** The episodes, one by one *)











End Frame.

(** * Where settled widgets come from *)

Lemma settled_fresh (lt dt : Q) (enabled : bool) :
  settled (fresh lt dt enabled).
Proof.
  unfold settled; cbn. repeat split; try reflexivity. discriminate.
Qed.

Lemma settled_after_scroll_timeout (T : Q) (w : World) :
  settled w ->
  exists w1, on_scroll_timeout T w = Ok tt w1 /\ settled w1.
Proof.
  intros (Hs & _).
  unfold on_scroll_timeout, schedule_once. run_monad. rewrite Hs. cbn.
  rewrite unlink_cons_same, unlink_nil. run_monad.
  rewrite unlink_cons_same, unlink_nil.
  eexists; split; [reflexivity |].
  unfold settled; cbn -[nth_error].
  split; [reflexivity |]. split; [rewrite length_app; cbn; lia |].
  split.
  - rewrite nth_error_app1 by (rewrite length_app; cbn; lia).
    rewrite nth_error_app2 by lia. now rewrite Nat.sub_diag.
  - rewrite nth_error_app2 by lia. now rewrite Nat.sub_diag.
Qed.

(** * Concrete runs *)




(** * Instances *)

Ltac by_evaluation :=
  solve [ reflexivity
        | vm_compute; reflexivity
        | vm_compute; discriminate
        | repeat constructor; vm_compute; discriminate ].

(** A left click on a widget that the pointer misses. *)
Lemma touch_outside_is_ignored_witness :
  on_touch_down far_host left_touch (defaults false)
    = Ok None (defaults false) /\
  on_touch_up far_host left_touch (defaults false)
    = Ok None (defaults false).
Proof.
  destruct (touch_outside_is_ignored far_host left_touch (defaults false))
    as [Hdown Hup]; [by_evaluation |].
  split; [apply Hdown | apply Hup]; by_evaluation.
Defined.

(** A right click on the default widget. *)
Lemma terminal_press_dispatches_once_witness :
  on_touch_down button_host right_touch (defaults false)
    = Ok (Some true)
        (mkWorld (began right_touch (self (defaults false)))
           (clock (defaults false)) [Dispatch on_right_click]).
Proof.
  destruct (terminal_press_dispatches_once button_host right_touch
              on_right_click (defaults false)) as (Hpress & _);
    [by_evaluation | by_evaluation | by_evaluation | left; reflexivity |].
  exact Hpress.
Defined.

(** The second press of a double click, 100 ms after the first. *)
Lemma second_press_is_double_click_witness :
  exists w1,
    on_touch_down button_host left_touch clicked_world = Ok (Some true) w1 /\
    outputs w1 = [Dispatch on_double_click].
Proof.
  destruct (second_press_is_double_click button_host left_touch
              clicked_world) as (w1 & Hpress & _ & _ & _ & Hout & _);
    [by_evaluation | by_evaluation | by_evaluation | by_evaluation |].
  exists w1. split; [exact Hpress | exact Hout].
Defined.

(** The long-press timer of a press held for 300 ms, detection off. *)
Lemma long_press_timer_fires_witness :
  exists w1,
    process_event button_host 0 (held_world false (3 # 10)) = Ok tt w1 /\
    outputs w1 = [SuperTouchDown left_touch; Dispatch on_long_press].
Proof.
  destruct (long_press_timer_fires button_host (held_world false (3 # 10))
              0 (mkEvent long_pressed_cb (25 # 100)))
    as (Hfire & _);
    [by_evaluation | by_evaluation | by_evaluation | by_evaluation |].
  eexists. split; [exact Hfire | reflexivity].
Defined.

(** The double-click timer of a press held for 220 ms, detection on. *)
Lemma double_timer_fires_during_hold_witness :
  exists w1,
    process_event button_host 1 (held_world true (22 # 100)) = Ok tt w1 /\
    state (self w1) = down /\ outputs w1 = [] /\
    linked 0 (clock w1) = true.
Proof.
  destruct (double_timer_fires_during_hold button_host
              (held_world true (22 # 100)) 0 (mkEvent send_press_cb (2 # 10)))
    as (Hfire & Hlong & _);
    [by_evaluation | by_evaluation | by_evaluation | by_evaluation
     | by_evaluation | by_evaluation |].
  eexists. split; [exact Hfire |].
  split; [reflexivity |]. split; [reflexivity | exact Hlong].
Defined.






(** * Whole runs *)

Ltac split_ifs :=
  repeat match goal with
         | |- context [if ?b then _ else _] => destruct b eqn:?; cbn
         | |- context [match ?o with Some _ => _ | None => _ end] =>
             destruct o eqn:?; cbn
         end.

Lemma world_of_bind {A B} (m : M A) (k : A -> M B) (w : World) :
  world_of (bind m k w)
  = match m w with
    | Ok a w' => world_of (k a w')
    | Raised _ w' => w'
    end.
Proof. unfold bind. destruct (m w); reflexivity. Qed.

Lemma same_setup_trans (w1 w2 w3 : World) :
  same_setup w1 w2 -> same_setup w2 w3 -> same_setup w1 w3.
Proof.
  unfold same_setup.
  intros (A1 & A2 & A3 & A4 & A5 & A6 & A7) (B1 & B2 & B3 & B4 & B5 & B6 & B7).
  repeat split; congruence.
Qed.

Ltac same_setup_now := unfold same_setup; cbn; auto 10.

(** *** The scheduling list stays sound *)

Lemma sched_ok_unlink (n h : nat) (l : list (nat * Q)) :
  sched_ok n l -> sched_ok n (unlink h l).
Proof.
  unfold sched_ok, unlink. intros [Hall Hnd]. split.
  - induction Hall as [| p l Hp _ IH]; cbn; [constructor |].
    inversion Hnd; subst. destruct (negb _); [constructor |]; auto.
  - induction l as [| p l IH]; cbn; [constructor |].
    cbn in Hnd. inversion Hnd as [| ? ? Hnin Hnd']; subst.
    inversion Hall; subst.
    destruct (negb _); [| now apply IH].
    cbn. constructor; [| now apply IH].
    intros Hin. apply Hnin. apply in_map_iff in Hin.
    destruct Hin as (q & Hq & Hin). apply filter_In in Hin.
    apply in_map_iff. exists q. tauto.
Qed.

Lemma sched_ok_arm (n h : nat) (t : Q) (l : list (nat * Q)) :
  (h < n)%nat ->
  existsb (fun p => Nat.eqb (fst p) h) l = false ->
  sched_ok n l -> sched_ok n (l ++ [(h, t)]).
Proof.
  unfold sched_ok. intros Hh Hfree [Hall Hnd]. split.
  - apply Forall_app. split; [exact Hall |]. now repeat constructor.
  - rewrite map_app. cbn. apply NoDup_app; [exact Hnd | | ].
    + repeat constructor. intros [].
    + intros k Hk [Hk' | []]. subst k.
      apply in_map_iff in Hk. destruct Hk as (q & Hq & Hin).
      assert (existsb (fun p => Nat.eqb (fst p) (fst q)) l = true).
      { apply existsb_exists. exists q. split; [exact Hin |].
        apply Nat.eqb_refl. }
      rewrite Hq in H. congruence.
Qed.

Lemma sched_ok_grow (n m : nat) (l : list (nat * Q)) :
  (n <= m)%nat -> sched_ok n l -> sched_ok m l.
Proof.
  unfold sched_ok. intros Hle [Hall Hnd]. split; [| exact Hnd].
  eapply Forall_impl; [| exact Hall]. cbn. intros p Hp. lia.
Qed.

Lemma handle_exists {A} (l : list A) (h : nat) (a : A) :
  nth_error l h = Some a -> (h < length l)%nat.
Proof. intros H. apply nth_error_Some. congruence. Qed.

Section Runs.

Variable host : Host.

Lemma on_touch_down_setup (touch : Touch) (w : World) :
  same_setup w (world_of (on_touch_down host touch w)).
Proof.
  unfold on_touch_down, super_touch_down.
  destruct (children_on_touch_down host touch); [same_setup_now |].
  destruct (collide_point host (pos touch)); [| same_setup_now].
  run_monad. split_ifs; same_setup_now.
Qed.

Lemma on_touch_up_setup (touch : Touch) (w : World) :
  same_setup w (world_of (on_touch_up host touch w)).
Proof.
  unfold on_touch_up, super_touch_up.
  destruct (children_on_touch_up host touch); [same_setup_now |].
  destruct (collide_point host (pos touch)); [| same_setup_now].
  destruct (is_mouse_scrolling touch); [same_setup_now |].
  run_monad. split_ifs; same_setup_now.
Qed.

Lemma send_press_setup (w : World) :
  same_setup w (world_of (send_press host w)).
Proof.
  unfold send_press, super_touch_down, super_touch_up,
    except_AttributeError, super_activate.
  run_monad. split_ifs; try same_setup_now.
  all: destruct (super_trigger_action host) as [| []]; same_setup_now.
Qed.

Lemma process_event_setup (h : nat) (w : World) :
  same_setup w (world_of (process_event host h w)).
Proof.
  unfold process_event. rewrite world_of_bind. unfold get_clock.
  destruct (ready h (clock w)) as [[] |]; [| | same_setup_now].
  - rewrite world_of_bind. unfold cancel, modify_clock. cbn [run_callback].
    rewrite long_pressed_world. same_setup_now.
  - rewrite world_of_bind. unfold cancel, modify_clock. cbn [run_callback].
    eapply same_setup_trans; [| apply send_press_setup]. same_setup_now.
Qed.

Lemma process_events_setup (hs : list nat) (w : World) :
  same_setup w (world_of (process_events host hs w)).
Proof.
  revert w. induction hs as [| h hs IH]; intros w; [same_setup_now |].
  cbn [process_events]. rewrite world_of_bind.
  pose proof (process_event_setup h w) as Hh.
  destruct (process_event host h w) as [[] w1 | e w1]; cbn in Hh.
  - eapply same_setup_trans; [exact Hh | apply IH].
  - exact Hh.
Qed.

Lemma tick_setup (d : Q) (w : World) :
  same_setup w (world_of (tick host d w)).
Proof.
  rewrite tick_unfold.
  eapply same_setup_trans; [| apply process_events_setup]. same_setup_now.
Qed.

Lemma step_setup (i : Input) (w : World) :
  touch_input i -> same_setup w (world_of (step host i w)).
Proof.
  intros Hi. destruct i as [t | t | d | v]; cbn [step].
  - rewrite world_of_bind. pose proof (on_touch_down_setup t w) as H.
    destruct (on_touch_down host t w); exact H.
  - rewrite world_of_bind. pose proof (on_touch_up_setup t w) as H.
    destruct (on_touch_up host t w); exact H.
  - apply tick_setup.
  - destruct Hi.
Qed.


(** *** No exception *)









(** *** The timer attributes stay sound *)

Lemma handles_ok_transfer (w w' : World) :
  handles_ok w -> same_setup w w' ->
  scheduled (clock w') = scheduled (clock w) ->
  handles_ok w'.
Proof.
  intros (Hs & Hne & Hl & Hd) (Hev & Hlc & Hdc & Hlt & Hdt & _) Hsch.
  unfold handles_ok. rewrite Hev, Hlc, Hdc, Hlt, Hdt, Hsch. auto.
Qed.

Ltac handles_now :=
  unfold handles_ok, linked in *; cbn in *;
  repeat match goal with H : _ /\ _ |- _ => destruct H end;
  (split; [| split; [| split]]); try assumption;
  repeat first
    [ assumption
    | apply sched_ok_unlink
    | apply sched_ok_arm; [eapply handle_exists; eassumption | assumption |] ].

Lemma on_touch_down_handles (touch : Touch) (w : World) :
  handles_ok w -> handles_ok (world_of (on_touch_down host touch w)).
Proof.
  intros Hok. unfold on_touch_down, super_touch_down.
  destruct (children_on_touch_down host touch); [exact Hok |].
  destruct (collide_point host (pos touch)); [| exact Hok].
  run_monad. split_ifs; handles_now.
Qed.

Lemma on_touch_up_handles (touch : Touch) (w : World) :
  handles_ok w -> handles_ok (world_of (on_touch_up host touch w)).
Proof.
  intros Hok. unfold on_touch_up, super_touch_up.
  destruct (children_on_touch_up host touch); [exact Hok |].
  destruct (collide_point host (pos touch)); [| exact Hok].
  destruct (is_mouse_scrolling touch); [exact Hok |].
  run_monad. split_ifs; handles_now.
Qed.

Lemma send_press_clock (w : World) :
  clock (world_of (send_press host w)) = clock w.
Proof.
  unfold send_press, super_touch_down, super_touch_up,
    except_AttributeError, super_activate.
  run_monad. split_ifs; try reflexivity.
  all: destruct (super_trigger_action host) as [| []]; reflexivity.
Qed.

Lemma process_event_handles (h : nat) (w : World) :
  handles_ok w -> handles_ok (world_of (process_event host h w)).
Proof.
  intros Hok. unfold process_event. rewrite world_of_bind. unfold get_clock.
  destruct (ready h (clock w)) as [[] |]; [| | exact Hok].
  - rewrite world_of_bind. unfold cancel, modify_clock. cbn [run_callback].
    rewrite long_pressed_world. handles_now.
  - rewrite world_of_bind. unfold cancel, modify_clock. cbn [run_callback].
    eapply handles_ok_transfer;
      [| apply send_press_setup | now rewrite send_press_clock].
    handles_now.
Qed.

Lemma process_events_handles (hs : list nat) (w : World) :
  handles_ok w -> handles_ok (world_of (process_events host hs w)).
Proof.
  revert w. induction hs as [| h hs IH]; intros w Hok; [exact Hok |].
  cbn [process_events]. rewrite world_of_bind.
  pose proof (process_event_handles h w Hok) as Hh.
  destruct (process_event host h w) as [[] w1 | e w1]; cbn in Hh.
  - now apply IH.
  - exact Hh.
Qed.

Lemma on_scroll_timeout_world (T : Q) (w : World) :
  clock_ok (clock w) ->
  let n := length (events (clock w)) in
  let lt := (long_time (self w) + T * (1 # 1000))%Q in
  let dt := (double_time (self w) + T * (1 # 1000))%Q in
  on_scroll_timeout T w =
  Ok tt
    (mkWorld
       (set__double_clock (S n)
          (set_double_time dt (set__long_clock n (set_long_time lt (self w)))))
       (mkClock (last_tick (clock w))
          ((events (clock w) ++ [mkEvent long_pressed_cb lt])
             ++ [mkEvent send_press_cb dt])
          (scheduled (clock w)))
       (outputs w)).
Proof.
  intros Hok n lt dt.
  unfold on_scroll_timeout, schedule_once. run_monad.
  rewrite (unlink_fresh n n) by (auto; exact Hok).
  run_monad. rewrite length_app; cbn. rewrite Nat.add_1_r. fold n.
  rewrite (unlink_fresh n (S n)) by (auto; exact Hok).
  reflexivity.
Qed.

Lemma on_scroll_timeout_handles (T : Q) (w : World) :
  handles_ok w -> handles_ok (world_of (on_scroll_timeout T w)).
Proof.
  intros ((Hall & Hnd) & Hne & Hl & Hd).
  rewrite on_scroll_timeout_world by exact Hall.
  unfold handles_ok; cbn -[nth_error].
  split; [| split; [lia | split]].
  - apply (sched_ok_grow (length (events (clock w))));
      [rewrite !length_app; cbn; lia | now split].
  - rewrite nth_error_app1 by (rewrite length_app; cbn; lia).
    rewrite nth_error_app2 by lia. now rewrite Nat.sub_diag.
  - rewrite nth_error_app2 by (rewrite length_app; cbn; lia).
    rewrite length_app. cbn [length].
    replace (S (length (events (clock w)))
             - (length (events (clock w)) + 1))%nat with 0%nat by lia.
    reflexivity.
Qed.

Lemma step_handles (i : Input) (w : World) :
  handles_ok w -> handles_ok (world_of (step host i w)).
Proof.
  intros Hok. destruct i as [t | t | d | v]; cbn [step].
  - rewrite world_of_bind. pose proof (on_touch_down_handles t w Hok) as H.
    destruct (on_touch_down host t w); exact H.
  - rewrite world_of_bind. pose proof (on_touch_up_handles t w Hok) as H.
    destruct (on_touch_up host t w); exact H.
  - rewrite tick_unfold. apply process_events_handles. exact Hok.
  - unfold assign_scroll_timeout. rewrite world_of_bind. unfold get.
    destruct (Qeq_bool _ _); [exact Hok |].
    rewrite world_of_bind. unfold modify_self.
    apply on_scroll_timeout_handles. exact Hok.
Qed.

Lemma handles_ok_fresh (lt dt : Q) (enabled : bool) :
  handles_ok (fresh lt dt enabled).
Proof.
  unfold handles_ok, sched_ok; cbn.
  repeat split; try reflexivity; try constructor. discriminate.
Qed.

(** *** Episodes in a row *)





(** *** Releases that do not reach the classifier *)

Lemma release_ignored (r : Touch) (w : World) :
  ignored host r -> exists ret, on_touch_up host r w = Ok ret w.
Proof.
  intros Hign. unfold on_touch_up.
  destruct (children_on_touch_up host r) eqn:Hc; [eauto |].
  destruct (collide_point host (pos r)) eqn:Hh; [| eauto].
  destruct (is_mouse_scrolling r) eqn:Hm; [eauto |].
  destruct Hign as [H | [H | H]]; congruence.
Qed.

Lemma run_skip_release (r : Touch) (xs ys : list Input) (w : World) :
  ignored host r ->
  run host (xs ++ Release r :: ys) w = run host (xs ++ ys) w.
Proof.
  intros Hign. revert w. induction xs as [| x xs IH]; intros w.
  - cbn [app]. destruct (release_ignored r w Hign) as [ret Hup].
    now rewrite (run_release host _ _ _ _ _ Hup).
  - cbn [app run]. unfold bind.
    destruct (step host x w) as [[] w1 | e w1]; [apply IH | reflexivity].
Qed.

Lemma hold_app (a b : list Q) : hold (a ++ b) = hold a ++ hold b.
Proof. apply map_app. Qed.

Lemma total_app (a b : list Q) : (total (a ++ b) == total a + total b)%Q.
Proof.
  unfold total. induction a as [| d a IH]; cbn [app fold_right]; [ring |].
  rewrite IH. ring.
Qed.

Lemma forward_app (a b : list Q) :
  forward a -> forward b -> forward (a ++ b).
Proof. intros Ha Hb. apply Forall_app. now split. Qed.

(** A primary press on a settled widget, held until [long_time] has
    elapsed. *)
Lemma press_held_long (p : Touch) (held : list Q) (w : World) :
  settled w ->
  lands host p -> primary p -> forward held ->
  (0 < long_time (self w))%Q ->
  (long_time (self w) <= total held)%Q ->
  exists w1 added,
    run host (Press p :: hold held) w = Ok tt w1 /\
    outputs w1 = outputs w ++ added /\
    classify added = [LongPress] /\
    scheduled (clock w1) = [] /\
    same_setup w w1 /\
    _after_long_press (self w1) = true.
Proof.
  intros Hset (Hcd & Hhd) Hprim Hf Hpos Hlong.
  pose proof Hset as (Hs & Hne & Hel & Hed).
  set (lc := _long_clock (self w)) in *.
  set (dc := _double_clock (self w)) in *.
  set (now := last_tick (clock w)) in *.
  destruct (double_click_enabled (self w)) eqn:Hen.
  - set (w0 := mkWorld (set_state down (began p (self w)))
                 (mkClock now (events (clock w)) [(lc, now); (dc, now)])
                 (outputs w)).
    assert (H := long_hold_both host held now now (long_time (self w))
                   (double_time (self w)) w0 Hf).
    cbn in H. fold lc dc in H.
    destruct H as (w1 & Hrun & Hself & Hout & Hsch & Hev);
      try assumption; try reflexivity; try lra.
    exists w1, [Dispatch on_long_press].
    erewrite run_press.
    2:{ rewrite press_settled by assumption. rewrite Hen. reflexivity. }
    repeat split; try assumption; try reflexivity;
      unfold same_setup; rewrite ?Hev, ?Hself; cbn; auto 10.
  - set (w0 := mkWorld (began p (self w))
                 (mkClock now (events (clock w)) [(lc, now)])
                 (outputs w ++ [SuperTouchDown p])).
    assert (H := long_hold_alone host held now (long_time (self w)) w0 Hf).
    cbn in H. fold lc in H.
    destruct H as (w1 & Hrun & Hself & Hout & Hsch & Hev);
      try assumption; try reflexivity; try lra.
    exists w1, [SuperTouchDown p; Dispatch on_long_press].
    erewrite run_press.
    2:{ rewrite press_settled by assumption. rewrite Hen. reflexivity. }
    repeat split; try assumption; try reflexivity;
      unfold same_setup; rewrite ?Hev, ?Hself, ?Hout; cbn;
      rewrite <- ?app_assoc; auto 10.
Qed.

(** *** A press held past [double_time] *)


(** *** A long-press event that is no longer the widget's *)



(** *** Statements *)

(** X1.  After [__init__], whatever the configuration, and after any
    sequence of presses, releases, frames and [scroll_timeout] changes
    (also one cut short by an exception): every scheduled event is an
    event of the clock, none is scheduled twice, and [_long_clock] and
    [_double_clock] are two different events that call [long_pressed]
    after the current [long_time] and [send_press] after the current
    [double_time]. *)
Theorem timer_attributes_stay_sound
    (lt dt : Q) (enabled : bool) (inputs : list Input) :
  handles_ok (world_of (run host inputs (fresh lt dt enabled))).
Proof.
  generalize (handles_ok_fresh lt dt enabled).
  generalize (fresh lt dt enabled) as w.
  induction inputs as [| i inputs IH]; intros w Hok; [exact Hok |].
  cbn [run]. rewrite world_of_bind.
  pose proof (step_handles i w Hok) as Hs.
  destruct (step host i w) as [[] w1 | e w1]; cbn in Hs.
  - now apply IH.
  - exact Hs.
Qed.

(** X2.  Presses, releases and frames never change [long_time],
    [double_time], [double_click_enabled] or [scroll_timeout], never create
    a clock event and never rebind [_long_clock] or [_double_clock], also
    when the run is cut short by an exception. *)
Theorem touch_handling_keeps_configuration
    (inputs : list Input) (w : World) :
  Forall touch_input inputs ->
  same_setup w (world_of (run host inputs w)).
Proof.
  intros Hin. revert w.
  induction Hin as [| i inputs Hi _ IH]; intros w.
  - unfold same_setup; cbn. auto 10.
  - cbn [run]. rewrite world_of_bind.
    pose proof (step_setup i w Hi) as Hs.
    destruct (step host i w) as [[] w1 | e w1]; cbn in Hs;
      [| exact Hs].
    eapply same_setup_trans; [exact Hs | apply IH].
Qed.



(** X5.  A release that does not reach the classifier (a child takes it,
    it happens off the surface, or it is a wheel release) does not stop
    the long-press timer: after a primary press on a settled widget,
    [on_long_press] is dispatched once [long_time] has elapsed since the
    press, whether or not such a release came in between, and nothing else
    is classified. *)
Theorem ignored_release_still_long_press
    (p r : Touch) (ds1 ds2 : list Q) (w : World) :
  settled w ->
  lands host p -> primary p ->
  ignored host r ->
  forward ds1 -> forward ds2 ->
  (0 < long_time (self w))%Q ->
  (long_time (self w) <= total ds1 + total ds2)%Q ->
  exists w' added,
    run host (Press p :: hold ds1 ++ Release r :: hold ds2) w = Ok tt w' /\
    outputs w' = outputs w ++ added /\
    classify added = [LongPress] /\
    _after_long_press (self w') = true.
Proof.
  intros Hset Hland Hprim Hign Hf1 Hf2 Hpos Hlong.
  change (Press p :: hold ds1 ++ Release r :: hold ds2)
    with ((Press p :: hold ds1) ++ Release r :: hold ds2).
  rewrite run_skip_release by exact Hign.
  cbn [app]. rewrite <- hold_app.
  destruct (press_held_long p (ds1 ++ ds2) w)
    as (w1 & added & Hrun & Hout & Hcls & _ & _ & Hafter);
    try assumption.
  - now apply forward_app.
  - rewrite total_app. exact Hlong.
  - exists w1, added. auto.
Qed.





(** X8.  Only [AttributeError] is swallowed.  When the double-click timer
    fires in a scroll view ([scroll_timeout > 0], long-press timer idle)
    and [trigger_action] raises another exception, the frame ends with
    that exception: the timer is already unscheduled, nothing was
    delivered, and the surface state was not reset. *)
Theorem frame_propagates_other_exception (d t0 tau : Q) (w : World) :
  scheduled (clock w) = [(_double_clock (self w), t0)] ->
  nth_error (events (clock w)) (_double_clock (self w))
    = Some (mkEvent send_press_cb tau) ->
  (tau <= last_tick (clock w) + d - t0)%Q ->
  (0 < scroll_timeout (self w))%Q ->
  super_trigger_action host = Raises OtherException ->
  tick host d w =
  Raised OtherException
    (mkWorld (self w)
       (mkClock (last_tick (clock w) + d) (events (clock w)) [])
       (outputs w)).
Proof.
  intros Hs He Hd Hst Hx.
  rewrite (tick_fires_send_press host d t0 tau) by assumption.
  apply send_press_other_exception; [reflexivity | exact Hst | exact Hx].
Qed.

(** X9.  [on_touch_up] never raises, never dispatches a notification,
    never forwards a press and never arms a timer: it adds no output or
    exactly the forwarded release, leaves the scheduling list alone or
    removes the long-press timer from it, leaves the surface state alone
    or sets it to [normal], and keeps the recorded touch, both flags, the
    configuration and the timer attributes. *)
Theorem release_only_cancels_and_forwards (touch : Touch) (w : World) :
  exists r w2,
    on_touch_up host touch w = Ok r w2 /\
    (outputs w2 = outputs w \/
     outputs w2 = outputs w ++ [SuperTouchUp touch]) /\
    (scheduled (clock w2) = scheduled (clock w) \/
     scheduled (clock w2)
       = unlink (_long_clock (self w)) (scheduled (clock w))) /\
    (state (self w2) = state (self w) \/ state (self w2) = normal) /\
    _current_touch (self w2) = _current_touch (self w) /\
    _second_click (self w2) = _second_click (self w) /\
    _after_long_press (self w2) = _after_long_press (self w) /\
    same_setup w w2.
Proof.
  unfold on_touch_up, super_touch_up.
  destruct (children_on_touch_up host touch);
    [do 2 eexists; split; [reflexivity |];
     unfold same_setup; cbn; repeat split; auto |].
  destruct (collide_point host (pos touch));
    [| do 2 eexists; split; [reflexivity |];
       unfold same_setup; cbn; repeat split; auto].
  destruct (is_mouse_scrolling touch);
    [do 2 eexists; split; [reflexivity |];
     unfold same_setup; cbn; repeat split; auto |].
  run_monad.
  split_ifs; (do 2 eexists; split; [reflexivity |]);
    unfold same_setup; cbn; repeat split; auto.
Qed.


(** *** After a first click *)




(** *** While the press is held *)


(** X13.  [on_touch_down] never raises, never forwards a release, never
    calls [trigger_action], never dispatches [on_long_press] and never
    sets the surface [normal]: it adds no output, or the forwarded press,
    or one notification other than [on_long_press]; it keeps the
    configuration and the timer attributes, and a long-press timer that
    was armed stays armed. *)
Theorem press_only_arms_and_dispatches (touch : Touch) (w : World) :
  exists r w1,
    on_touch_down host touch w = Ok r w1 /\
    (outputs w1 = outputs w \/
     outputs w1 = outputs w ++ [SuperTouchDown touch] \/
     exists n, n <> on_long_press /\
               outputs w1 = outputs w ++ [Dispatch n]) /\
    (state (self w1) = state (self w) \/ state (self w1) = down) /\
    same_setup w w1 /\
    (_long_clock (self w) <> _double_clock (self w) ->
     linked (_long_clock (self w)) (clock w) = true ->
     linked (_long_clock (self w1)) (clock w1) = true).
Proof.
  unfold on_touch_down, super_touch_down.
  destruct (children_on_touch_down host touch);
    [do 2 eexists; split; [reflexivity |];
     unfold same_setup; cbn; repeat split; auto |].
  destruct (collide_point host (pos touch));
    [| do 2 eexists; split; [reflexivity |];
       unfold same_setup; cbn; repeat split; auto].
  destruct (terminal_button touch) as [n |] eqn:Hterm.
  - run_monad. do 2 eexists. split; [reflexivity |]. cbn.
    split.
    { right. right. exists n. split; [| reflexivity].
      unfold terminal_button in Hterm.
      destruct (in_profile "button" touch); [| discriminate].
      repeat match type of Hterm with
             | (if ?b then _ else _) = _ => destruct b
             end; congruence. }
    unfold same_setup; cbn. repeat split; auto.
  - run_monad.
    split_ifs; (do 2 eexists; split; [reflexivity |]);
      unfold same_setup; cbn; (split; [| split; [| split]]);
      auto 10;
      try (right; right; exists on_double_click;
           split; [discriminate | reflexivity]);
      intros Hne Hl; unfold linked in *; cbn in *;
      rewrite ?linked_unlink_other by exact Hne;
      rewrite ?existsb_app; cbn;
      rewrite ?existsb_app; cbn;
      repeat match goal with
             | H : existsb _ _ = true |- _ => rewrite H
             end;
      rewrite ?Nat.eqb_refl, ?orb_true_r; cbn; auto.
Qed.


End Runs.

(** * Instances for whole runs *)

(** A slow click is made of touch inputs only. *)
Lemma touch_handling_keeps_configuration_witness :
  same_setup (defaults true)
    (world_of (run button_host slow_click (defaults true))).
Proof.
  apply (touch_handling_keeps_configuration button_host slow_click
           (defaults true)).
  repeat constructor.
Defined.



(** A horizontal wheel event on the default widget: the press counts as a
    primary press, its release is swallowed as scrolling. *)
Lemma ignored_release_still_long_press_witness :
  exists w' added,
    run button_host
      (Press wheel_left_touch :: hold [5 # 100]
         ++ Release wheel_left_touch :: hold [3 # 10])
      (defaults false) = Ok tt w' /\
    outputs w' = outputs (defaults false) ++ added /\
    classify added = [LongPress] /\
    _after_long_press (self w') = true.
Proof.
  apply (ignored_release_still_long_press button_host wheel_left_touch
           wheel_left_touch [5 # 100] [3 # 10] (defaults false)).
  - unfold settled; cbn. repeat split; try reflexivity. discriminate.
  - unfold lands. split; reflexivity.
  - reflexivity.
  - unfold ignored. right. right. reflexivity.
  - by_evaluation.
  - by_evaluation.
  - by_evaluation.
  - by_evaluation.
Defined.



(** The frame one second after a click in a scroll view, on a widget whose
    [trigger_action] fails. *)
Lemma frame_propagates_other_exception_witness :
  tick faulty_host 1 scrolled_clicked_world
  = Raised OtherException
      (mkWorld (self scrolled_clicked_world)
         (mkClock (last_tick (clock scrolled_clicked_world) + 1)
            (events (clock scrolled_clicked_world)) [])
         (outputs scrolled_clicked_world)).
Proof.
  apply (frame_propagates_other_exception faulty_host 1 0
           (double_time (self scrolled_clicked_world))
           scrolled_clicked_world).
  - by_evaluation.
  - by_evaluation.
  - by_evaluation.
  - by_evaluation.
  - reflexivity.
Defined.




